(** * Distortion parameters of the OSVR RenderManager

    A shallow embedding of [osvr/RenderKit/DistortionParameters.h]: the
    class [osvr::renderkit::DistortionParameters], its default constructor
    and its constructor from an [OSVRDisplayConfiguration] and an eye
    index.

    The constructors only select and copy fields, but they do so through
    three effects that the embedding keeps explicit:
    - a write to [std::cerr] on the unrecognised-type path, modelled as
      state passing over the characters written so far;
    - [std::vector::operator[]] on the eye list, which is undefined when
      the index is not below the size, modelled as the absence of a
      result;
    - [static_cast<float>] on the centre of projection, modelled as the
      IEEE 754 round-to-nearest-even conversion of the Standard Library's
      [SpecFloat]. *)

From Stdlib Require Import ZArith NArith QArith Qpower String Ascii.
From Stdlib Require Import Floats.SpecFloat.
From stdpp Require Import base decidable option list strings.

Local Open Scope string_scope.
Local Open Scope Z_scope.

(** ** Floating-point values *)

(** C++ [float] and [double] are IEEE 754 binary32 and binary64. Both are
    represented by [spec_float] (sign, mantissa, exponent; one NaN); the
    two formats differ by their precision and exponent range. *)
Module IEEE.

Definition float : Type := spec_float.
Definition double : Type := spec_float.

Definition float_prec : Z := 24.
Definition float_emax : Z := 128.
Definition double_prec : Z := 53.
Definition double_emax : Z := 1024.

(** The value is one that the format can hold. *)
Definition is_float (x : spec_float) : bool :=
  valid_binary float_prec float_emax x.
Definition is_double (x : spec_float) : bool :=
  valid_binary double_prec double_emax x.

(** The literal [m * 2^e], as a [float] (for [0.5f], and for the
    integer constants [0] and [1] converted in a braced initialiser of
    [std::vector<float>]) and as a [double]. *)
Definition float_lit (m e : Z) : float :=
  binary_normalize float_prec float_emax m e false.
Definition double_lit (m e : Z) : double :=
  binary_normalize double_prec double_emax m e false.

(** [static_cast<float>(d)] for a [double] [d]: zeros, infinities and
    NaN are kept, a finite value is rounded to the nearest binary32
    value, ties to even, overflowing to infinity. *)
Definition static_cast_float (d : double) : float :=
  match d with
  | S754_finite s m e => binary_round float_prec float_emax s m e
  | _ => d
  end.

(** The rational number a finite value denotes. *)
Definition to_Q (x : spec_float) : option Q :=
  match x with
  | S754_zero _ => Some 0%Q
  | S754_finite s m e =>
      let v := (inject_Z (Zpos m) * Qpower 2 e)%Q in
      Some (Qred (if s then Qopp v else v))
  | _ => None
  end.

End IEEE.
Import IEEE.

(** ** The error stream and undefined behaviour *)

(** The characters written to [std::cerr] so far. *)
Definition ostream : Type := string.

(** A computation reads and extends the error stream, and either returns
    or has no defined result. *)
Definition M (A : Type) : Type := ostream -> option (A * ostream).

#[global] Instance M_ret : MRet M := fun A a cerr => Some (a, cerr).

#[global] Instance M_bind : MBind M := fun A B f m cerr =>
  match m cerr with
  | Some (a, cerr') => f a cerr'
  | None => None
  end.

Definition undefined {A : Type} : M A := fun _ => None.

(** [std::cerr << s] *)
Definition write (s : string) : M unit := fun cerr => Some (tt, cerr +:+ s).

(** [std::endl] *)
Definition endl : string := String "010"%char EmptyString.

(** [v[i]] on a [std::vector]: defined only for [i < v.size()]. *)
Definition vector_index {A : Type} (v : list A) (i : N) : M A :=
  match v !! N.to_nat i with
  | Some a => mret a
  | None => undefined
  end.

(** [v.push_back(x)] *)
Definition push_back {A : Type} (v : list A) (x : A) : list A := v ++ [x].

(** ** The display configuration *)

(** Modelled from the spec: [osvr_display_configuration.h] is not among
    the sources. The distortion-type indicator is "enumerated:
    symmetric-polynomial / mono-point-sample / rgb-point-sample / other";
    the three named enumerators are the ones the constructor compares
    against, and [UNRECOGNIZED] stands for any other value the indicator
    holds. *)
Inductive DistortionType : Type :=
  | RGB_SYMMETRIC_POLYNOMIALS
  | MONO_POINT_SAMPLES
  | RGB_POINT_SAMPLES
  | UNRECOGNIZED.

#[global] Instance DistortionType_eq_dec : EqDecision DistortionType.
Proof. solve_decision. Defined.

(** Modelled from the spec: the per-eye record of the configuration, of
    which the constructor reads the centre of projection. The constructor
    narrows both members with [static_cast<float>], so they are held in
    double precision. *)
Record EyeInfo : Type := {
  m_CenterProjX : double;
  m_CenterProjY : double
}.

(** The tag of the parameter record: [DistortionParameters::Type]. *)
Inductive Type_ : Type :=
  | mono_point_samples
  | rgb_point_samples
  | rgb_symmetric_polynomials.

#[global] Instance Type_eq_dec : EqDecision Type_.
Proof. solve_decision. Defined.

Section DistortionParameters.

(** Modelled from the spec: [MonoPointMeshTypes.h] and
    [RGBPointMeshTypes.h] are not among the sources. The point-mesh
    descriptions are opaque to this component; the two members are
    collections of them, empty when default-initialised. *)
Context {MonoPointDistortionMeshDescription : Type}.
Context {RGBPointDistortionMeshDescription : Type}.

Definition MonoPointDistortionMeshDescriptions : Type :=
  list MonoPointDistortionMeshDescription.
Definition RGBPointDistortionMeshDescriptions : Type :=
  list RGBPointDistortionMeshDescription.

(** Modelled from the spec: the part of [OSVRDisplayConfiguration] the
    constructor reads, one field per getter it calls (the getters'
    spelling is the source's). The getters are taken to return the
    stored value and to leave the configuration unchanged. *)
Record OSVRDisplayConfiguration : Type := {
  getDistortionType : DistortionType;
  getDistortionTypeString : string;
  getDistortionDistanceScaleX : float;
  getDistortionDistanceScaleY : float;
  getDistortionPolynomalRed : list float;
  getDistortionPolynomalGreen : list float;
  getDistortionPolynomalBlue : list float;
  getEyes : list EyeInfo;
  getDistortionMonoPointMeshes : MonoPointDistortionMeshDescriptions;
  getDistortionRGBPointMeshes : RGBPointDistortionMeshDescriptions
}.

(** ** The parameter record *)

Record DistortionParameters : Type := {
  m_type : Type_;
  m_desiredTriangles : N;
  m_monoPointSamples : MonoPointDistortionMeshDescriptions;
  m_rgbPointSamples : RGBPointDistortionMeshDescriptions;
  m_distortionPolynomialRed : list float;
  m_distortionPolynomialGreen : list float;
  m_distortionPolynomialBlue : list float;
  m_distortionCOP : list float;
  m_distortionD : list float
}.

(** Member assignments [this->m_x = v]. *)
Definition set_m_type (v : Type_) (this : DistortionParameters) :=
  {| m_type := v;
     m_desiredTriangles := m_desiredTriangles this;
     m_monoPointSamples := m_monoPointSamples this;
     m_rgbPointSamples := m_rgbPointSamples this;
     m_distortionPolynomialRed := m_distortionPolynomialRed this;
     m_distortionPolynomialGreen := m_distortionPolynomialGreen this;
     m_distortionPolynomialBlue := m_distortionPolynomialBlue this;
     m_distortionCOP := m_distortionCOP this;
     m_distortionD := m_distortionD this |}.

Definition set_m_monoPointSamples (v : MonoPointDistortionMeshDescriptions)
    (this : DistortionParameters) :=
  {| m_type := m_type this;
     m_desiredTriangles := m_desiredTriangles this;
     m_monoPointSamples := v;
     m_rgbPointSamples := m_rgbPointSamples this;
     m_distortionPolynomialRed := m_distortionPolynomialRed this;
     m_distortionPolynomialGreen := m_distortionPolynomialGreen this;
     m_distortionPolynomialBlue := m_distortionPolynomialBlue this;
     m_distortionCOP := m_distortionCOP this;
     m_distortionD := m_distortionD this |}.

Definition set_m_rgbPointSamples (v : RGBPointDistortionMeshDescriptions)
    (this : DistortionParameters) :=
  {| m_type := m_type this;
     m_desiredTriangles := m_desiredTriangles this;
     m_monoPointSamples := m_monoPointSamples this;
     m_rgbPointSamples := v;
     m_distortionPolynomialRed := m_distortionPolynomialRed this;
     m_distortionPolynomialGreen := m_distortionPolynomialGreen this;
     m_distortionPolynomialBlue := m_distortionPolynomialBlue this;
     m_distortionCOP := m_distortionCOP this;
     m_distortionD := m_distortionD this |}.

Definition set_m_distortionPolynomialRed (v : list float)
    (this : DistortionParameters) :=
  {| m_type := m_type this;
     m_desiredTriangles := m_desiredTriangles this;
     m_monoPointSamples := m_monoPointSamples this;
     m_rgbPointSamples := m_rgbPointSamples this;
     m_distortionPolynomialRed := v;
     m_distortionPolynomialGreen := m_distortionPolynomialGreen this;
     m_distortionPolynomialBlue := m_distortionPolynomialBlue this;
     m_distortionCOP := m_distortionCOP this;
     m_distortionD := m_distortionD this |}.

Definition set_m_distortionPolynomialGreen (v : list float)
    (this : DistortionParameters) :=
  {| m_type := m_type this;
     m_desiredTriangles := m_desiredTriangles this;
     m_monoPointSamples := m_monoPointSamples this;
     m_rgbPointSamples := m_rgbPointSamples this;
     m_distortionPolynomialRed := m_distortionPolynomialRed this;
     m_distortionPolynomialGreen := v;
     m_distortionPolynomialBlue := m_distortionPolynomialBlue this;
     m_distortionCOP := m_distortionCOP this;
     m_distortionD := m_distortionD this |}.

Definition set_m_distortionPolynomialBlue (v : list float)
    (this : DistortionParameters) :=
  {| m_type := m_type this;
     m_desiredTriangles := m_desiredTriangles this;
     m_monoPointSamples := m_monoPointSamples this;
     m_rgbPointSamples := m_rgbPointSamples this;
     m_distortionPolynomialRed := m_distortionPolynomialRed this;
     m_distortionPolynomialGreen := m_distortionPolynomialGreen this;
     m_distortionPolynomialBlue := v;
     m_distortionCOP := m_distortionCOP this;
     m_distortionD := m_distortionD this |}.

Definition set_m_distortionCOP (v : list float)
    (this : DistortionParameters) :=
  {| m_type := m_type this;
     m_desiredTriangles := m_desiredTriangles this;
     m_monoPointSamples := m_monoPointSamples this;
     m_rgbPointSamples := m_rgbPointSamples this;
     m_distortionPolynomialRed := m_distortionPolynomialRed this;
     m_distortionPolynomialGreen := m_distortionPolynomialGreen this;
     m_distortionPolynomialBlue := m_distortionPolynomialBlue this;
     m_distortionCOP := v;
     m_distortionD := m_distortionD this |}.

Definition set_m_distortionD (v : list float)
    (this : DistortionParameters) :=
  {| m_type := m_type this;
     m_desiredTriangles := m_desiredTriangles this;
     m_monoPointSamples := m_monoPointSamples this;
     m_rgbPointSamples := m_rgbPointSamples this;
     m_distortionPolynomialRed := m_distortionPolynomialRed this;
     m_distortionPolynomialGreen := m_distortionPolynomialGreen this;
     m_distortionPolynomialBlue := m_distortionPolynomialBlue this;
     m_distortionCOP := m_distortionCOP this;
     m_distortionD := v |}.

(** ** The constructors *)

(** [DistortionParameters::DistortionParameters()]. The two point-sample
    members are not assigned: they keep their default-initialised, empty
    state. *)
Definition Default : DistortionParameters :=
  {| m_type := rgb_symmetric_polynomials;
     m_distortionCOP := [float_lit 1 (-1) (* X *); float_lit 1 (-1) (* Y *)];
     m_distortionD := [float_lit 1 0 (* DX *); float_lit 1 0 (* DY *)];
     m_distortionPolynomialRed := [float_lit 0 0; float_lit 1 0];
     m_distortionPolynomialGreen := [float_lit 0 0; float_lit 1 0];
     m_distortionPolynomialBlue := [float_lit 0 0; float_lit 1 0];
     m_desiredTriangles := 2%N;
     m_monoPointSamples := [];
     m_rgbPointSamples := [] |}.

(** [DistortionParameters::DistortionParameters(OSVRDisplayConfiguration&
    osvrParams, size_t eye)] *)
Definition Construct (osvrParams : OSVRDisplayConfiguration) (eye : N)
    : M DistortionParameters :=
  let this := Default in
  if decide (getDistortionType osvrParams = RGB_SYMMETRIC_POLYNOMIALS) then
    let this := set_m_type rgb_symmetric_polynomials this in
    let Ds : list float := [] in
    let Ds := push_back Ds (getDistortionDistanceScaleX osvrParams) in
    let Ds := push_back Ds (getDistortionDistanceScaleY osvrParams) in
    let this := set_m_distortionD Ds this in
    let this :=
      set_m_distortionPolynomialRed
        (getDistortionPolynomalRed osvrParams) this in
    let this :=
      set_m_distortionPolynomialGreen
        (getDistortionPolynomalGreen osvrParams) this in
    let this :=
      set_m_distortionPolynomialBlue
        (getDistortionPolynomalBlue osvrParams) this in
    eyeX ← vector_index (getEyes osvrParams) eye;
    eyeY ← vector_index (getEyes osvrParams) eye;
    let COP := [static_cast_float (m_CenterProjX eyeX);
                static_cast_float (m_CenterProjY eyeY)] in
    mret (set_m_distortionCOP COP this)
  else if decide (getDistortionType osvrParams = MONO_POINT_SAMPLES) then
    let this := set_m_type mono_point_samples this in
    mret (set_m_monoPointSamples
            (getDistortionMonoPointMeshes osvrParams) this)
  else if decide (getDistortionType osvrParams = RGB_POINT_SAMPLES) then
    let this := set_m_type rgb_point_samples this in
    mret (set_m_rgbPointSamples
            (getDistortionRGBPointMeshes osvrParams) this)
  else
    write ("DistortionParameters::DistortionParameters(): "
           +:+ "Unrecognized distortion correction type (");;
    write (getDistortionTypeString osvrParams);;
    write "), ignoring";;
    write endl;;
    mret this.

End DistortionParameters.

Arguments OSVRDisplayConfiguration : clear implicits.
Arguments DistortionParameters : clear implicits.

(** The whole line the last branch of [Construct] adds to the error
    stream, for a configuration whose type string is [typeString]. *)
Definition unrecognized_diagnostic (typeString : string) : string :=
  "DistortionParameters::DistortionParameters(): Unrecognized distortion correction type ("
  +:+ typeString +:+ "), ignoring" +:+ endl.

(** The records a program can hold: those a constructor returned. *)
Inductive constructed {Mono RGB : Type} : DistortionParameters Mono RGB -> Prop :=
  | constructed_default : constructed Default
  | constructed_from (osvrParams : OSVRDisplayConfiguration Mono RGB)
      (eye : N) (cerr cerr' : ostream) (r : DistortionParameters Mono RGB) :
      Construct osvrParams eye cerr = Some (r, cerr') -> constructed r.

(** The runs of [Construct], branch by branch: the polynomial branch with
    the eye index in range and out of range, the two point-sample
    branches and the last branch. *)
Variant Construct_run {Mono RGB : Type}
    (osvrParams : OSVRDisplayConfiguration Mono RGB) (eye : N) (cerr : ostream) :
    option (DistortionParameters Mono RGB * ostream) -> Prop :=
  | run_polynomials (e : EyeInfo) :
      getDistortionType osvrParams = RGB_SYMMETRIC_POLYNOMIALS ->
      getEyes osvrParams !! N.to_nat eye = Some e ->
      Construct_run osvrParams eye cerr
        (Some (set_m_distortionCOP
                 [static_cast_float (m_CenterProjX e);
                  static_cast_float (m_CenterProjY e)]
                 (set_m_distortionPolynomialBlue
                    (getDistortionPolynomalBlue osvrParams)
                    (set_m_distortionPolynomialGreen
                       (getDistortionPolynomalGreen osvrParams)
                       (set_m_distortionPolynomialRed
                          (getDistortionPolynomalRed osvrParams)
                          (set_m_distortionD
                             [getDistortionDistanceScaleX osvrParams;
                              getDistortionDistanceScaleY osvrParams]
                             (set_m_type rgb_symmetric_polynomials Default))))),
               cerr))
  | run_undefined :
      getDistortionType osvrParams = RGB_SYMMETRIC_POLYNOMIALS ->
      getEyes osvrParams !! N.to_nat eye = None ->
      Construct_run osvrParams eye cerr None
  | run_mono :
      getDistortionType osvrParams = MONO_POINT_SAMPLES ->
      Construct_run osvrParams eye cerr
        (Some (set_m_monoPointSamples (getDistortionMonoPointMeshes osvrParams)
                 (set_m_type mono_point_samples Default), cerr))
  | run_rgb :
      getDistortionType osvrParams = RGB_POINT_SAMPLES ->
      Construct_run osvrParams eye cerr
        (Some (set_m_rgbPointSamples (getDistortionRGBPointMeshes osvrParams)
                 (set_m_type rgb_point_samples Default), cerr))
  | run_unrecognized :
      getDistortionType osvrParams = UNRECOGNIZED ->
      Construct_run osvrParams eye cerr
        (Some (Default,
               cerr +:+ unrecognized_diagnostic
                          (getDistortionTypeString osvrParams))).

(** ** Sample configurations *)

(** In the samples a point-mesh description is a number naming it. *)
Module Samples.

(** The double nearest to 0.1, which no [float] equals. *)
Definition one_tenth : double := double_lit 7205759403792794 (-56).

Definition left_eye : EyeInfo :=
  {| m_CenterProjX := one_tenth; m_CenterProjY := double_lit 1 (-1) |}.

Definition right_eye : EyeInfo :=
  {| m_CenterProjX := double_lit 3 (-2); m_CenterProjY := double_lit 1 (-1) |}.

(** A head-mounted display with quadratic red, linear green and cubic blue
    distortion, over a space 1.5 units wide and 5 units high. *)
Definition hmd (type : DistortionType) (typeString : string)
    (eyes : list EyeInfo) : OSVRDisplayConfiguration nat nat :=
  {| getDistortionType := type;
     getDistortionTypeString := typeString;
     getDistortionDistanceScaleX := float_lit 3 (-1);
     getDistortionDistanceScaleY := float_lit 5 0;
     getDistortionPolynomalRed := [float_lit 0 0; float_lit 1 0; float_lit 1 (-2)];
     getDistortionPolynomalGreen := [float_lit 0 0; float_lit 1 0];
     getDistortionPolynomalBlue :=
       [float_lit 0 0; float_lit 1 0; float_lit 0 0; float_lit 1 (-3)];
     getEyes := eyes;
     getDistortionMonoPointMeshes := [1; 2]%nat;
     getDistortionRGBPointMeshes := [3; 4; 5]%nat |}.

Definition polynomial_hmd : OSVRDisplayConfiguration nat nat :=
  hmd RGB_SYMMETRIC_POLYNOMIALS "rgb_symmetric_polynomials"
    [left_eye; right_eye].

Definition mono_mesh_hmd : OSVRDisplayConfiguration nat nat :=
  hmd MONO_POINT_SAMPLES "mono_point_samples" [left_eye; right_eye].

Definition rgb_mesh_hmd : OSVRDisplayConfiguration nat nat :=
  hmd RGB_POINT_SAMPLES "rgb_point_samples" [left_eye; right_eye].

Definition unknown_hmd : OSVRDisplayConfiguration nat nat :=
  hmd UNRECOGNIZED "barrel" [left_eye; right_eye].

(** What [Construct] is to return for the left eye of [polynomial_hmd]:
    the float nearest to 0.1 is 13421773 * 2^-27. *)
Definition polynomial_hmd_left : DistortionParameters nat nat :=
  {| m_type := rgb_symmetric_polynomials;
     m_desiredTriangles := 2%N;
     m_monoPointSamples := [];
     m_rgbPointSamples := [];
     m_distortionPolynomialRed :=
       [float_lit 0 0; float_lit 1 0; float_lit 1 (-2)];
     m_distortionPolynomialGreen := [float_lit 0 0; float_lit 1 0];
     m_distortionPolynomialBlue :=
       [float_lit 0 0; float_lit 1 0; float_lit 0 0; float_lit 1 (-3)];
     m_distortionCOP := [float_lit 13421773 (-27); float_lit 1 (-1)];
     m_distortionD := [float_lit 3 (-1); float_lit 5 0] |}.

End Samples.

(** ** Floats held in double precision *)

(** The double that holds the float [f] with [k] more mantissa bits. It
    denotes the same number ([to_Q_widen] below); the exact conversion
    from [float] to [double] gives a normal float 29 more bits. *)
Definition widen (k : positive) (f : float) : double :=
  match f with
  | S754_finite s m e => S754_finite s (Pos.iter xO m k) (e - Zpos k)
  | _ => f
  end.

(** Two more sample configurations, which share with those of [Samples]
    only what one branch of [Construct] reads. *)
Module MoreSamples.

(** The polynomial fields of [Samples.polynomial_hmd], with its right eye
    as the only eye and other point meshes. *)
Definition one_eyed_polynomial_hmd : OSVRDisplayConfiguration nat nat :=
  {| getDistortionType := RGB_SYMMETRIC_POLYNOMIALS;
     getDistortionTypeString := "polynomials";
     getDistortionDistanceScaleX := float_lit 3 (-1);
     getDistortionDistanceScaleY := float_lit 5 0;
     getDistortionPolynomalRed :=
       [float_lit 0 0; float_lit 1 0; float_lit 1 (-2)];
     getDistortionPolynomalGreen := [float_lit 0 0; float_lit 1 0];
     getDistortionPolynomalBlue :=
       [float_lit 0 0; float_lit 1 0; float_lit 0 0; float_lit 1 (-3)];
     getEyes := [Samples.right_eye];
     getDistortionMonoPointMeshes := [];
     getDistortionRGBPointMeshes := [8]%nat |}.

(** The mono point meshes of [Samples.mono_mesh_hmd], with no eye, no
    polynomial and other scales. *)
Definition bare_mono_mesh_hmd : OSVRDisplayConfiguration nat nat :=
  {| getDistortionType := MONO_POINT_SAMPLES;
     getDistortionTypeString := "mono";
     getDistortionDistanceScaleX := float_lit 1 0;
     getDistortionDistanceScaleY := float_lit 1 0;
     getDistortionPolynomalRed := [];
     getDistortionPolynomalGreen := [];
     getDistortionPolynomalBlue := [];
     getEyes := [];
     getDistortionMonoPointMeshes := [1; 2]%nat;
     getDistortionRGBPointMeshes := [] |}.

End MoreSamples.

(** * Properties *)

(** ** Strings and floating-point conversion *)

Lemma string_app_assoc (s1 s2 s3 : string) :
  (s1 +:+ s2) +:+ s3 = s1 +:+ (s2 +:+ s3).
Proof.
  induction s1 as [|c s1 IH]; [reflexivity|].
  change (String c ((s1 +:+ s2) +:+ s3) = String c (s1 +:+ (s2 +:+ s3))).
  by rewrite IH.
Qed.

(** Rounding to a format is exact on the values of that format: a value
    [m * 2^e] of the format, held with [k] more mantissa bits (as binary64
    holds every binary32 value), rounds back to [m * 2^e]. *)
Lemma digits2_pos_shift (m k : positive) :
  Zpos (digits2_pos (Pos.iter xO m k)) = Zpos (digits2_pos m) + Zpos k.
Proof.
  induction k as [|k IH] using Pos.peano_ind.
  - cbn. lia.
  - rewrite Pos.iter_succ. cbn [digits2_pos]. lia.
Qed.

Lemma shr_1_shift (m k : positive) :
  SpecFloat.iter_pos shr_1 k
    {| shr_m := Zpos (Pos.iter xO m k); shr_r := false; shr_s := false |}
  = {| shr_m := Zpos m; shr_r := false; shr_s := false |}.
Proof.
  revert m.
  induction k as [k IH|k IH|]; intros m; cbn [SpecFloat.iter_pos Pos.iter].
  - cbn [shr_1 orb]. by rewrite !IH.
  - by rewrite !IH.
  - reflexivity.
Qed.

Lemma binary_round_exact (prec emax : Z) (s : bool) (m k : positive) (e : Z) :
  bounded prec emax m e = true ->
  binary_round prec emax s (Pos.iter xO m k) (e - Zpos k) = S754_finite s m e.
Proof.
  unfold bounded, canonical_mantissa.
  intros [Hc He]%andb_prop. apply Z.eqb_eq in Hc.
  assert (Hfexp :
    fexp prec emax (Zpos (digits2_pos (Pos.iter xO m k)) + (e - Zpos k)) = e).
  { rewrite digits2_pos_shift. rewrite <- Hc at 2. f_equal. lia. }
  unfold binary_round, shl_align. rewrite Hfexp.
  replace (e - (e - Zpos k)) with (Zpos k) by lia.
  unfold binary_round_aux, shr_fexp. cbn [Zdigits2 shr_record_of_loc].
  rewrite Hfexp. replace (e - (e - Zpos k)) with (Zpos k) by lia.
  cbn [shr]. rewrite shr_1_shift.
  cbn [shr_m loc_of_shr_record round_nearest_even Zdigits2 shr_record_of_loc].
  replace (e - Z.pos k + Z.pos k) with e by lia.
  rewrite Hc, Z.sub_diag. cbn [shr shr_m]. by rewrite He.
Qed.

(** [static_cast<float>] returns the float itself on a double that holds
    a float. *)
Lemma static_cast_float_exact (s : bool) (m k : positive) (e : Z) :
  is_float (S754_finite s m e) = true ->
  static_cast_float (S754_finite s (Pos.iter xO m k) (e - Zpos k))
  = S754_finite s m e.
Proof. apply binary_round_exact. Qed.

(** One half is such a double; one tenth is not, and the conversion
    changes it. *)
Example static_cast_float_one_half :
  is_double (double_lit 1 (-1)) = true /\
  to_Q (double_lit 1 (-1)) = Some (1 # 2)%Q /\
  static_cast_float (double_lit 1 (-1)) = float_lit 1 (-1) /\
  to_Q (static_cast_float (double_lit 1 (-1))) = Some (1 # 2)%Q.
Proof. repeat split; vm_compute; reflexivity. Qed.

Example static_cast_float_one_tenth :
  is_double Samples.one_tenth = true /\
  to_Q Samples.one_tenth = Some (3602879701896397 # 36028797018963968)%Q /\
  to_Q (static_cast_float Samples.one_tenth) = Some (13421773 # 134217728)%Q.
Proof. repeat split; vm_compute; reflexivity. Qed.

(** ** The four branches of [Construct] *)

Section Branches.

Context {Mono RGB : Type}.
Implicit Types (osvrParams : OSVRDisplayConfiguration Mono RGB).
Implicit Types (eye : N) (cerr : ostream) (e : EyeInfo).
Implicit Types (r : DistortionParameters Mono RGB).

Lemma vector_index_in_range {A : Type} (v : list A) (i : N) (a : A) cerr :
  v !! N.to_nat i = Some a -> vector_index v i cerr = Some (a, cerr).
Proof. unfold vector_index. by intros ->. Qed.

Lemma vector_index_out_of_range {A : Type} (v : list A) (i : N) cerr :
  v !! N.to_nat i = None -> vector_index v i cerr = None.
Proof. unfold vector_index. by intros ->. Qed.

Lemma Construct_polynomials osvrParams eye cerr e :
  getDistortionType osvrParams = RGB_SYMMETRIC_POLYNOMIALS ->
  getEyes osvrParams !! N.to_nat eye = Some e ->
  Construct osvrParams eye cerr =
    Some ({| m_type := rgb_symmetric_polynomials;
             m_desiredTriangles := 2%N;
             m_monoPointSamples := [];
             m_rgbPointSamples := [];
             m_distortionPolynomialRed := getDistortionPolynomalRed osvrParams;
             m_distortionPolynomialGreen :=
               getDistortionPolynomalGreen osvrParams;
             m_distortionPolynomialBlue :=
               getDistortionPolynomalBlue osvrParams;
             m_distortionCOP := [static_cast_float (m_CenterProjX e);
                                 static_cast_float (m_CenterProjY e)];
             m_distortionD := [getDistortionDistanceScaleX osvrParams;
                               getDistortionDistanceScaleY osvrParams] |},
          cerr).
Proof.
  intros Htype Heye. unfold Construct. rewrite Htype.
  rewrite decide_True by done.
  unfold mbind, M_bind.
  rewrite (vector_index_in_range _ _ e) by done.
  rewrite (vector_index_in_range _ _ e) by done.
  reflexivity.
Qed.

Lemma Construct_polynomials_undefined osvrParams eye cerr :
  getDistortionType osvrParams = RGB_SYMMETRIC_POLYNOMIALS ->
  getEyes osvrParams !! N.to_nat eye = None ->
  Construct osvrParams eye cerr = None.
Proof.
  intros Htype Heye. unfold Construct. rewrite Htype.
  rewrite decide_True by done.
  unfold mbind, M_bind.
  by rewrite vector_index_out_of_range.
Qed.

Lemma Construct_mono osvrParams eye cerr :
  getDistortionType osvrParams = MONO_POINT_SAMPLES ->
  Construct osvrParams eye cerr =
    Some (set_m_monoPointSamples (getDistortionMonoPointMeshes osvrParams)
            (set_m_type mono_point_samples Default), cerr).
Proof. intros Htype. unfold Construct. by rewrite Htype. Qed.

Lemma Construct_rgb osvrParams eye cerr :
  getDistortionType osvrParams = RGB_POINT_SAMPLES ->
  Construct osvrParams eye cerr =
    Some (set_m_rgbPointSamples (getDistortionRGBPointMeshes osvrParams)
            (set_m_type rgb_point_samples Default), cerr).
Proof. intros Htype. unfold Construct. by rewrite Htype. Qed.

Lemma Construct_unrecognized osvrParams eye cerr :
  getDistortionType osvrParams <> RGB_SYMMETRIC_POLYNOMIALS ->
  getDistortionType osvrParams <> MONO_POINT_SAMPLES ->
  getDistortionType osvrParams <> RGB_POINT_SAMPLES ->
  Construct osvrParams eye cerr =
    Some (Default,
          cerr +:+ unrecognized_diagnostic (getDistortionTypeString osvrParams)).
Proof.
  intros Hp Hm Hr. unfold Construct.
  rewrite !decide_False by done.
  unfold mbind, M_bind, write, mret, M_ret, unrecognized_diagnostic.
  by rewrite !string_app_assoc.
Qed.

(** Every run of [Construct] is one of them. *)
Lemma Construct_runs osvrParams eye cerr :
  Construct_run osvrParams eye cerr (Construct osvrParams eye cerr).
Proof.
  destruct (getDistortionType osvrParams) eqn:Htype.
  - destruct (getEyes osvrParams !! N.to_nat eye) as [e|] eqn:Heye.
    + rewrite (Construct_polynomials _ _ _ e) by done. by apply run_polynomials.
    + rewrite Construct_polynomials_undefined by done. by apply run_undefined.
  - rewrite Construct_mono by done. by apply run_mono.
  - rewrite Construct_rgb by done. by apply run_rgb.
  - rewrite Construct_unrecognized by (by rewrite Htype).
    by apply run_unrecognized.
Qed.

End Branches.

(** ** The claims *)

Section Claims.

Context {Mono RGB : Type}.
Implicit Types (osvrParams : OSVRDisplayConfiguration Mono RGB).
Implicit Types (eye : N) (cerr : ostream) (e : EyeInfo).
Implicit Types (r : DistortionParameters Mono RGB).

(** C1, amended. [Construct] returns a record whenever the eye index is
    below the number of eyes of the configuration, and for every eye index
    when the distortion type is not [RGB_SYMMETRIC_POLYNOMIALS]. With an
    index past the end, the polynomial branch reads
    [osvrParams.getEyes()[eye]] outside the vector and has no defined
    result. *)
Theorem Construct_succeeds_in_range osvrParams eye cerr :
  (getDistortionType osvrParams = RGB_SYMMETRIC_POLYNOMIALS ->
   (eye < N.of_nat (length (getEyes osvrParams)))%N) ->
  exists r cerr', Construct osvrParams eye cerr = Some (r, cerr').
Proof.
  intros Hrange.
  destruct (Construct_runs osvrParams eye cerr) as [e Ht He|Ht He|Ht|Ht|Ht];
    try by eauto.
  apply lookup_ge_None in He. specialize (Hrange Ht). lia.
Qed.

(** C2. When the distortion type is none of the three recognised values,
    [Construct] returns the default record, whatever the eye index:
    tag [rgb_symmetric_polynomials], scale (1, 1), centre of projection
    (0.5, 0.5), polynomial 0 + 1 x for each channel, two triangles and no
    point samples; and it appends to the error stream one line that
    carries the configuration's type string. *)
Theorem Construct_unrecognized_is_default osvrParams eye cerr :
  getDistortionType osvrParams <> RGB_SYMMETRIC_POLYNOMIALS ->
  getDistortionType osvrParams <> MONO_POINT_SAMPLES ->
  getDistortionType osvrParams <> RGB_POINT_SAMPLES ->
  exists r,
    Construct osvrParams eye cerr =
      Some (r, cerr
               +:+ "DistortionParameters::DistortionParameters(): Unrecognized distortion correction type ("
               +:+ getDistortionTypeString osvrParams
               +:+ "), ignoring" +:+ endl) /\
    r = Default /\
    m_type r = rgb_symmetric_polynomials /\
    to_Q <$> m_distortionD r = [Some 1%Q; Some 1%Q] /\
    to_Q <$> m_distortionCOP r = [Some (1 # 2)%Q; Some (1 # 2)%Q] /\
    to_Q <$> m_distortionPolynomialRed r = [Some 0%Q; Some 1%Q] /\
    to_Q <$> m_distortionPolynomialGreen r = [Some 0%Q; Some 1%Q] /\
    to_Q <$> m_distortionPolynomialBlue r = [Some 0%Q; Some 1%Q] /\
    m_desiredTriangles r = 2%N /\
    m_monoPointSamples r = [] /\
    m_rgbPointSamples r = [].
Proof.
  intros Hp Hm Hr. exists Default. split.
  - by rewrite Construct_unrecognized.
  - repeat split.
Qed.

(** C3, amended. When the distortion type is [RGB_SYMMETRIC_POLYNOMIALS]
    and the eye index names an eye of the configuration, the constructed
    record has tag [rgb_symmetric_polynomials]; its scale is the pair of
    the configuration's distance scales and its three polynomials are the
    configuration's coefficient sequences, all unchanged; its centre of
    projection is the pair of that eye's [m_CenterProjX] and
    [m_CenterProjY], each converted by [static_cast<float>]. *)
Theorem Construct_polynomials_copies osvrParams eye cerr e :
  getDistortionType osvrParams = RGB_SYMMETRIC_POLYNOMIALS ->
  getEyes osvrParams !! N.to_nat eye = Some e ->
  exists r,
    Construct osvrParams eye cerr = Some (r, cerr) /\
    m_type r = rgb_symmetric_polynomials /\
    m_distortionD r = [getDistortionDistanceScaleX osvrParams;
                       getDistortionDistanceScaleY osvrParams] /\
    m_distortionPolynomialRed r = getDistortionPolynomalRed osvrParams /\
    m_distortionPolynomialGreen r = getDistortionPolynomalGreen osvrParams /\
    m_distortionPolynomialBlue r = getDistortionPolynomalBlue osvrParams /\
    m_distortionCOP r = [static_cast_float (m_CenterProjX e);
                         static_cast_float (m_CenterProjY e)].
Proof.
  intros Htype Heye. eexists. split.
  - by apply Construct_polynomials.
  - repeat split.
Qed.

(** C4. In every record a constructor returned, the members of the
    variants the tag does not select have their default values: the mono
    samples are empty unless the tag is [mono_point_samples], the rgb
    samples are empty unless it is [rgb_point_samples], and unless it is
    [rgb_symmetric_polynomials] the three polynomials are [0; 1], the
    centre of projection is (0.5, 0.5) and the scale is (1, 1). *)
Theorem unselected_variants_are_default r :
  constructed r ->
  (m_type r <> mono_point_samples -> m_monoPointSamples r = []) /\
  (m_type r <> rgb_point_samples -> m_rgbPointSamples r = []) /\
  (m_type r <> rgb_symmetric_polynomials ->
     m_distortionPolynomialRed r = [float_lit 0 0; float_lit 1 0] /\
     m_distortionPolynomialGreen r = [float_lit 0 0; float_lit 1 0] /\
     m_distortionPolynomialBlue r = [float_lit 0 0; float_lit 1 0] /\
     m_distortionCOP r = [float_lit 1 (-1); float_lit 1 (-1)] /\
     m_distortionD r = [float_lit 1 0; float_lit 1 0]).
Proof.
  intros Hr. destruct Hr as [|osvrParams eye cerr cerr' r Hrun].
  - by repeat split.
  - pose proof (Construct_runs osvrParams eye cerr) as Hcase.
    rewrite Hrun in Hcase.
    inversion Hcase; subst; cbn; by repeat split.
Qed.

(** C5. When the distortion type is [MONO_POINT_SAMPLES], for every eye
    index the constructed record has tag [mono_point_samples], its mono
    samples are the configuration's mono point meshes, and every other
    member has its default value: the record is the default one with the
    tag and the mono samples overwritten. *)
Theorem Construct_mono_point_samples osvrParams eye cerr :
  getDistortionType osvrParams = MONO_POINT_SAMPLES ->
  exists r,
    Construct osvrParams eye cerr = Some (r, cerr) /\
    m_type r = mono_point_samples /\
    m_monoPointSamples r = getDistortionMonoPointMeshes osvrParams /\
    r = set_m_monoPointSamples (m_monoPointSamples r)
          (set_m_type (m_type r) Default) /\
    m_rgbPointSamples r = [] /\
    m_distortionPolynomialRed r = [float_lit 0 0; float_lit 1 0] /\
    m_distortionPolynomialGreen r = [float_lit 0 0; float_lit 1 0] /\
    m_distortionPolynomialBlue r = [float_lit 0 0; float_lit 1 0] /\
    m_distortionCOP r = [float_lit 1 (-1); float_lit 1 (-1)] /\
    m_distortionD r = [float_lit 1 0; float_lit 1 0] /\
    m_desiredTriangles r = 2%N.
Proof.
  intros Htype. eexists. split.
  - by apply Construct_mono.
  - repeat split.
Qed.

(** C6. When the distortion type is [RGB_POINT_SAMPLES], for every eye
    index the constructed record has tag [rgb_point_samples] and its rgb
    samples are the configuration's per-channel point meshes. *)
Theorem Construct_rgb_point_samples osvrParams eye cerr :
  getDistortionType osvrParams = RGB_POINT_SAMPLES ->
  exists r,
    Construct osvrParams eye cerr = Some (r, cerr) /\
    m_type r = rgb_point_samples /\
    m_rgbPointSamples r = getDistortionRGBPointMeshes osvrParams.
Proof.
  intros Htype. eexists. split.
  - by apply Construct_rgb.
  - by split.
Qed.

(** C7. The default-constructed record has tag
    [rgb_symmetric_polynomials], centre of projection (0.5, 0.5), scale
    (1, 1), the polynomial 0 + 1 x for red, green and blue, and two
    desired triangles. *)
Theorem Default_fields :
  let r : DistortionParameters Mono RGB := Default in
  m_type r = rgb_symmetric_polynomials /\
  to_Q <$> m_distortionCOP r = [Some (1 # 2)%Q; Some (1 # 2)%Q] /\
  to_Q <$> m_distortionD r = [Some 1%Q; Some 1%Q] /\
  to_Q <$> m_distortionPolynomialRed r = [Some 0%Q; Some 1%Q] /\
  to_Q <$> m_distortionPolynomialGreen r = [Some 0%Q; Some 1%Q] /\
  to_Q <$> m_distortionPolynomialBlue r = [Some 0%Q; Some 1%Q] /\
  m_desiredTriangles r = 2%N.
Proof. repeat split. Qed.

(** C8. When the distortion type is not [RGB_SYMMETRIC_POLYNOMIALS],
    [Construct] returns the same record, and leaves the same error stream,
    for any two eye indices. *)
Theorem Construct_ignores_eye osvrParams eye1 eye2 cerr :
  getDistortionType osvrParams <> RGB_SYMMETRIC_POLYNOMIALS ->
  exists r cerr',
    Construct osvrParams eye1 cerr = Some (r, cerr') /\
    Construct osvrParams eye2 cerr = Some (r, cerr').
Proof.
  intros Htype.
  destruct (getDistortionType osvrParams) eqn:Ht; [done| | |].
  - do 2 eexists. by rewrite !Construct_mono.
  - do 2 eexists. by rewrite !Construct_rgb.
  - do 2 eexists. by rewrite !Construct_unrecognized by (by rewrite Ht).
Qed.

(** C9, amended. When the eye index is below the number of eyes of the
    configuration (or the distortion type is not
    [RGB_SYMMETRIC_POLYNOMIALS]), constructing twice from the same
    configuration and eye index yields two equal records: every run
    returns the same record [r], whatever the error stream it starts from,
    and so do two runs in a row, the second starting from the stream the
    first one left. *)
Theorem Construct_deterministic osvrParams eye cerr1 cerr2 :
  (getDistortionType osvrParams = RGB_SYMMETRIC_POLYNOMIALS ->
   (eye < N.of_nat (length (getEyes osvrParams)))%N) ->
  exists r cerr1' cerr2' cerr'',
    Construct osvrParams eye cerr1 = Some (r, cerr1') /\
    Construct osvrParams eye cerr2 = Some (r, cerr2') /\
    (r1 ← Construct osvrParams eye;
     r2 ← Construct osvrParams eye;
     mret (r1, r2)) cerr1 = Some ((r, r), cerr'').
Proof.
  intros Hrange. unfold mbind, M_bind, mret, M_ret.
  destruct (Construct_runs osvrParams eye cerr1) as [e Ht He|Ht He|Ht|Ht|Ht].
  - do 4 eexists. by rewrite !(Construct_polynomials _ _ _ e).
  - apply lookup_ge_None in He. specialize (Hrange Ht). lia.
  - do 4 eexists. by rewrite !Construct_mono.
  - do 4 eexists. by rewrite !Construct_rgb.
  - do 4 eexists. by rewrite !Construct_unrecognized by (by rewrite Ht).
Qed.

(** C10. Every record a constructor returned has two desired triangles:
    the default constructor stores 2 and no branch of [Construct] assigns
    the member. *)
Theorem desiredTriangles_is_two r :
  constructed r -> m_desiredTriangles r = 2%N.
Proof.
  intros Hr. destruct Hr as [|osvrParams eye cerr cerr' r Hrun]; [done|].
  pose proof (Construct_runs osvrParams eye cerr) as Hcase.
  rewrite Hrun in Hcase.
  by inversion Hcase.
Qed.

End Claims.

(** ** The claims on the sample configurations *)

(** C1 as first stated fails: the sample display has two eyes, and with
    eye index 2 the polynomial branch indexes the eye list past its end. *)
Lemma Construct_eye_past_the_end :
  length (getEyes Samples.polynomial_hmd) = 2%nat /\
  Construct Samples.polynomial_hmd 2 "" = None.
Proof. split; reflexivity. Qed.

Lemma Construct_succeeds_in_range_witness :
  (getDistortionType Samples.polynomial_hmd = RGB_SYMMETRIC_POLYNOMIALS ->
   (1 < N.of_nat (length (getEyes Samples.polynomial_hmd)))%N) /\
  exists r cerr', Construct Samples.polynomial_hmd 1 "" = Some (r, cerr').
Proof.
  assert (Hrange :
    getDistortionType Samples.polynomial_hmd = RGB_SYMMETRIC_POLYNOMIALS ->
    (1 < N.of_nat (length (getEyes Samples.polynomial_hmd)))%N)
    by (intros _; reflexivity).
  split; [exact Hrange|].
  exact (Construct_succeeds_in_range Samples.polynomial_hmd 1 "" Hrange).
Defined.

Lemma Construct_unrecognized_is_default_witness :
  exists r,
    Construct Samples.unknown_hmd 7 "" =
      Some (r, ""
               +:+ "DistortionParameters::DistortionParameters(): Unrecognized distortion correction type ("
               +:+ "barrel"
               +:+ "), ignoring" +:+ endl) /\
    r = Default /\
    m_type r = rgb_symmetric_polynomials /\
    to_Q <$> m_distortionD r = [Some 1%Q; Some 1%Q] /\
    to_Q <$> m_distortionCOP r = [Some (1 # 2)%Q; Some (1 # 2)%Q] /\
    to_Q <$> m_distortionPolynomialRed r = [Some 0%Q; Some 1%Q] /\
    to_Q <$> m_distortionPolynomialGreen r = [Some 0%Q; Some 1%Q] /\
    to_Q <$> m_distortionPolynomialBlue r = [Some 0%Q; Some 1%Q] /\
    m_desiredTriangles r = 2%N /\
    m_monoPointSamples r = [] /\
    m_rgbPointSamples r = [].
Proof.
  apply (Construct_unrecognized_is_default Samples.unknown_hmd 7 "");
    cbn; discriminate.
Defined.

(** C3 as first stated fails: the left eye of the sample display has its
    centre of projection at the double nearest to 0.1, and the record
    holds the float nearest to it, a different number. *)
Lemma Construct_narrows_center_of_projection :
  exists r e,
    getEyes Samples.polynomial_hmd !! 0%nat = Some e /\
    Construct Samples.polynomial_hmd 0 "" = Some (r, "") /\
    to_Q <$> m_distortionCOP r <> to_Q <$> [m_CenterProjX e; m_CenterProjY e].
Proof.
  exists Samples.polynomial_hmd_left, Samples.left_eye.
  split; [reflexivity|]. split; [vm_compute; reflexivity|].
  vm_compute. discriminate.
Qed.

Lemma Construct_polynomials_copies_witness :
  getDistortionType Samples.polynomial_hmd = RGB_SYMMETRIC_POLYNOMIALS /\
  getEyes Samples.polynomial_hmd !! N.to_nat 1 = Some Samples.right_eye /\
  exists r,
    Construct Samples.polynomial_hmd 1 "" = Some (r, "") /\
    m_type r = rgb_symmetric_polynomials /\
    m_distortionD r = [float_lit 3 (-1); float_lit 5 0] /\
    m_distortionPolynomialRed r =
      [float_lit 0 0; float_lit 1 0; float_lit 1 (-2)] /\
    m_distortionPolynomialGreen r = [float_lit 0 0; float_lit 1 0] /\
    m_distortionPolynomialBlue r =
      [float_lit 0 0; float_lit 1 0; float_lit 0 0; float_lit 1 (-3)] /\
    m_distortionCOP r = [static_cast_float (double_lit 3 (-2));
                         static_cast_float (double_lit 1 (-1))].
Proof.
  split; [reflexivity|]. split; [reflexivity|].
  exact (Construct_polynomials_copies Samples.polynomial_hmd 1 ""
           Samples.right_eye eq_refl eq_refl).
Defined.

Lemma unselected_variants_are_default_witness :
  exists r,
    Construct Samples.mono_mesh_hmd 0 "" = Some (r, "") /\
    constructed r /\
    (m_type r <> mono_point_samples -> m_monoPointSamples r = []) /\
    (m_type r <> rgb_point_samples -> m_rgbPointSamples r = []) /\
    (m_type r <> rgb_symmetric_polynomials ->
       m_distortionPolynomialRed r = [float_lit 0 0; float_lit 1 0] /\
       m_distortionPolynomialGreen r = [float_lit 0 0; float_lit 1 0] /\
       m_distortionPolynomialBlue r = [float_lit 0 0; float_lit 1 0] /\
       m_distortionCOP r = [float_lit 1 (-1); float_lit 1 (-1)] /\
       m_distortionD r = [float_lit 1 0; float_lit 1 0]).
Proof.
  exists (set_m_monoPointSamples [1; 2]%nat
            (set_m_type mono_point_samples Default)).
  split; [reflexivity|].
  assert (Hr : constructed
                 (set_m_monoPointSamples [1; 2]%nat
                    (set_m_type mono_point_samples
                       (Default (RGBPointDistortionMeshDescription := nat)))))
    by (apply (constructed_from Samples.mono_mesh_hmd 0 "" ""); reflexivity).
  split; [exact Hr|].
  exact (unselected_variants_are_default _ Hr).
Defined.

Lemma Construct_mono_point_samples_witness :
  getDistortionType Samples.mono_mesh_hmd = MONO_POINT_SAMPLES /\
  exists r,
    Construct Samples.mono_mesh_hmd 1 "" = Some (r, "") /\
    m_type r = mono_point_samples /\
    m_monoPointSamples r = [1; 2]%nat /\
    r = set_m_monoPointSamples (m_monoPointSamples r)
          (set_m_type (m_type r) Default) /\
    m_rgbPointSamples r = [] /\
    m_distortionPolynomialRed r = [float_lit 0 0; float_lit 1 0] /\
    m_distortionPolynomialGreen r = [float_lit 0 0; float_lit 1 0] /\
    m_distortionPolynomialBlue r = [float_lit 0 0; float_lit 1 0] /\
    m_distortionCOP r = [float_lit 1 (-1); float_lit 1 (-1)] /\
    m_distortionD r = [float_lit 1 0; float_lit 1 0] /\
    m_desiredTriangles r = 2%N.
Proof.
  split; [reflexivity|].
  exact (Construct_mono_point_samples Samples.mono_mesh_hmd 1 "" eq_refl).
Defined.

Lemma Construct_rgb_point_samples_witness :
  getDistortionType Samples.rgb_mesh_hmd = RGB_POINT_SAMPLES /\
  exists r,
    Construct Samples.rgb_mesh_hmd 0 "" = Some (r, "") /\
    m_type r = rgb_point_samples /\
    m_rgbPointSamples r = [3; 4; 5]%nat.
Proof.
  split; [reflexivity|].
  exact (Construct_rgb_point_samples Samples.rgb_mesh_hmd 0 "" eq_refl).
Defined.

Lemma Construct_ignores_eye_witness :
  getDistortionType Samples.rgb_mesh_hmd <> RGB_SYMMETRIC_POLYNOMIALS /\
  exists r cerr',
    Construct Samples.rgb_mesh_hmd 0 "" = Some (r, cerr') /\
    Construct Samples.rgb_mesh_hmd 5 "" = Some (r, cerr').
Proof.
  assert (Htype :
    getDistortionType Samples.rgb_mesh_hmd <> RGB_SYMMETRIC_POLYNOMIALS)
    by (cbn; discriminate).
  split; [exact Htype|].
  exact (Construct_ignores_eye Samples.rgb_mesh_hmd 0 5 "" Htype).
Defined.

Lemma desiredTriangles_is_two_witness :
  exists r,
    Construct Samples.polynomial_hmd 0 "" = Some (r, "") /\
    constructed r /\
    m_desiredTriangles r = 2%N.
Proof.
  exists Samples.polynomial_hmd_left.
  assert (Hrun : Construct Samples.polynomial_hmd 0 ""
                 = Some (Samples.polynomial_hmd_left, ""))
    by (vm_compute; reflexivity).
  assert (Hr : constructed Samples.polynomial_hmd_left)
    by exact (constructed_from Samples.polynomial_hmd 0 "" "" _ Hrun).
  split; [exact Hrun|].
  split; [exact Hr|].
  exact (desiredTriangles_is_two Samples.polynomial_hmd_left Hr).
Defined.

(** C9 as first stated fails: with eye index 2 on the sample display of
    two eyes, neither construction yields a record, so there are no two
    equal records. *)
Lemma Construct_twice_past_the_end :
  (N.of_nat (length (getEyes Samples.polynomial_hmd)) <= 2)%N /\
  (forall cerr, Construct Samples.polynomial_hmd 2 cerr = None) /\
  ~ exists r1 r2 cerr1 cerr2,
      Construct Samples.polynomial_hmd 2 "" = Some (r1, cerr1) /\
      Construct Samples.polynomial_hmd 2 cerr1 = Some (r2, cerr2) /\
      r1 = r2.
Proof.
  split; [by vm_compute|]. split; [reflexivity|].
  intros (r1 & r2 & cerr1 & cerr2 & Hrun & _). discriminate Hrun.
Qed.

Lemma Construct_deterministic_witness :
  (getDistortionType Samples.polynomial_hmd = RGB_SYMMETRIC_POLYNOMIALS ->
   (0 < N.of_nat (length (getEyes Samples.polynomial_hmd)))%N) /\
  exists r cerr1' cerr2' cerr'',
    Construct Samples.polynomial_hmd 0 "" = Some (r, cerr1') /\
    Construct Samples.polynomial_hmd 0 "earlier output" = Some (r, cerr2') /\
    (r1 ← Construct Samples.polynomial_hmd 0;
     r2 ← Construct Samples.polynomial_hmd 0;
     mret (r1, r2)) "" = Some ((r, r), cerr'').
Proof.
  assert (Hrange :
    getDistortionType Samples.polynomial_hmd = RGB_SYMMETRIC_POLYNOMIALS ->
    (0 < N.of_nat (length (getEyes Samples.polynomial_hmd)))%N)
    by (intros _; reflexivity).
  split; [exact Hrange|].
  exact (Construct_deterministic Samples.polynomial_hmd 0
           "" "earlier output" Hrange).
Defined.

(** * Further properties of the constructors *)

(** ** Strings and widened floats *)

Lemma string_app_nil_r (s : string) : s +:+ "" = s.
Proof.
  induction s as [|c s IH]; [reflexivity|].
  change (String c (s +:+ "") = String c s). by rewrite IH.
Qed.

Lemma Zpos_shift (m k : positive) :
  Zpos (Pos.iter xO m k) = Zpos m * 2 ^ Zpos k.
Proof.
  induction k as [|k IH] using Pos.peano_ind.
  - cbn. lia.
  - rewrite Pos.iter_succ, Pos2Z.inj_succ, Z.pow_succ_r by lia.
    rewrite Pos2Z.inj_xO, IH. lia.
Qed.

(** Widening does not change the number a float denotes. *)
Lemma to_Q_widen (k : positive) (f : float) : to_Q (widen k f) = to_Q f.
Proof.
  destruct f as [s|s| |s m e]; try reflexivity.
  cbn [widen to_Q]. f_equal. apply Qred_complete.
  assert (Hv : (inject_Z (Zpos (Pos.iter xO m k)) * Qpower 2 (e - Zpos k)
                == inject_Z (Zpos m) * Qpower 2 e)%Q).
  { rewrite Zpos_shift, inject_Z_mult.
    rewrite Zpower_Qpower by lia.
    rewrite <- Qmult_assoc. apply Qmult_comp; [reflexivity|].
    change (inject_Z 2) with 2%Q.
    rewrite <- Qpower_plus by discriminate.
    by replace (Zpos k + (e - Zpos k)) with e by lia. }
  destruct s; by rewrite Hv.
Qed.

(** [static_cast<float>] undoes the widening of a float. *)
Lemma static_cast_float_widen (k : positive) (f : float) :
  is_float f = true -> static_cast_float (widen k f) = f.
Proof.
  destruct f as [s|s| |s m e]; try reflexivity.
  apply static_cast_float_exact.
Qed.

Section Further.

Context {Mono RGB : Type}.
Implicit Types (osvrParams : OSVRDisplayConfiguration Mono RGB).
Implicit Types (eye : N) (cerr : ostream) (e : EyeInfo).
Implicit Types (r : DistortionParameters Mono RGB).

(** X1. [Construct] has no defined result exactly when the distortion type
    is [RGB_SYMMETRIC_POLYNOMIALS] and the eye index is not below the
    number of eyes: the unchecked [getEyes()[eye]] is the only way
    construction can go wrong. *)
Theorem Construct_undefined_iff osvrParams eye cerr :
  Construct osvrParams eye cerr = None <->
  getDistortionType osvrParams = RGB_SYMMETRIC_POLYNOMIALS /\
  (N.of_nat (length (getEyes osvrParams)) <= eye)%N.
Proof.
  split.
  - intros Hnone.
    destruct (Construct_runs osvrParams eye cerr) as [e Ht He|Ht He|Ht|Ht|Ht];
      try discriminate Hnone.
    apply lookup_ge_None in He. split; [done|lia].
  - intros [Ht Hge]. apply Construct_polynomials_undefined; [done|].
    apply lookup_ge_None. lia.
Qed.

(** X2. [Construct] writes to the error stream only on the last branch:
    when the distortion type is one of the three recognised values, the
    stream it leaves is the stream it found. *)
Theorem Construct_recognized_is_silent osvrParams eye cerr r cerr' :
  Construct osvrParams eye cerr = Some (r, cerr') ->
  getDistortionType osvrParams = RGB_SYMMETRIC_POLYNOMIALS \/
  getDistortionType osvrParams = MONO_POINT_SAMPLES \/
  getDistortionType osvrParams = RGB_POINT_SAMPLES ->
  cerr' = cerr.
Proof.
  intros Hrun Htype.
  pose proof (Construct_runs osvrParams eye cerr) as Hcase.
  rewrite Hrun in Hcase.
  inversion Hcase as [e Ht He|Ht He|Ht|Ht|Ht]; subst; try done.
  rewrite Ht in Htype. by destruct Htype as [|[|]].
Qed.

(** X3. In every record a constructor returned, the centre of projection
    and the scale have exactly two components, whatever the lengths of the
    sequences in the configuration. *)
Theorem constructed_pairs_have_two_components r :
  constructed r ->
  length (m_distortionCOP r) = 2%nat /\ length (m_distortionD r) = 2%nat.
Proof.
  intros Hr. destruct Hr as [|osvrParams eye cerr cerr' r Hrun]; [done|].
  pose proof (Construct_runs osvrParams eye cerr) as Hcase.
  rewrite Hrun in Hcase.
  by inversion Hcase.
Qed.

(** X4. The tag tells a consumer where the selected members come from. A
    record tagged [mono_point_samples] (or [rgb_point_samples]) was built
    from a configuration of that type and holds its point meshes. A record
    tagged [rgb_symmetric_polynomials] either holds the scale and the
    polynomials of a polynomial configuration, or is the default record
    standing in for a configuration of unrecognised type: the tag alone
    does not tell the two apart. *)
Theorem selected_variant_is_faithful osvrParams eye cerr r cerr' :
  Construct osvrParams eye cerr = Some (r, cerr') ->
  (m_type r = mono_point_samples ->
     getDistortionType osvrParams = MONO_POINT_SAMPLES /\
     m_monoPointSamples r = getDistortionMonoPointMeshes osvrParams) /\
  (m_type r = rgb_point_samples ->
     getDistortionType osvrParams = RGB_POINT_SAMPLES /\
     m_rgbPointSamples r = getDistortionRGBPointMeshes osvrParams) /\
  (m_type r = rgb_symmetric_polynomials ->
     (getDistortionType osvrParams = RGB_SYMMETRIC_POLYNOMIALS /\
      m_distortionD r = [getDistortionDistanceScaleX osvrParams;
                         getDistortionDistanceScaleY osvrParams] /\
      m_distortionPolynomialRed r = getDistortionPolynomalRed osvrParams /\
      m_distortionPolynomialGreen r = getDistortionPolynomalGreen osvrParams /\
      m_distortionPolynomialBlue r = getDistortionPolynomalBlue osvrParams) \/
     (getDistortionType osvrParams <> RGB_SYMMETRIC_POLYNOMIALS /\
      getDistortionType osvrParams <> MONO_POINT_SAMPLES /\
      getDistortionType osvrParams <> RGB_POINT_SAMPLES /\
      r = Default)).
Proof.
  intros Hrun.
  pose proof (Construct_runs osvrParams eye cerr) as Hcase.
  rewrite Hrun in Hcase.
  inversion Hcase as [e Ht He|Ht He|Ht|Ht|Ht]; subst; cbn;
    (split; [|split]); try done.
  - intros _. left. by repeat split.
  - intros _. right. rewrite Ht. by repeat split.
Qed.

(** X5. The polynomial branch reads nothing but the two scales, the three
    polynomials and the eye at the given index: two polynomial
    configurations that agree on these, at their own eye indices, yield
    the same record or both none, whatever their other eyes, point meshes
    and type strings, and whatever the error streams. *)
Theorem Construct_polynomials_reads_only_its_fields
    osvrParams1 osvrParams2 eye1 eye2 cerr1 cerr2 :
  getDistortionType osvrParams1 = RGB_SYMMETRIC_POLYNOMIALS ->
  getDistortionType osvrParams2 = RGB_SYMMETRIC_POLYNOMIALS ->
  getDistortionDistanceScaleX osvrParams1
    = getDistortionDistanceScaleX osvrParams2 ->
  getDistortionDistanceScaleY osvrParams1
    = getDistortionDistanceScaleY osvrParams2 ->
  getDistortionPolynomalRed osvrParams1
    = getDistortionPolynomalRed osvrParams2 ->
  getDistortionPolynomalGreen osvrParams1
    = getDistortionPolynomalGreen osvrParams2 ->
  getDistortionPolynomalBlue osvrParams1
    = getDistortionPolynomalBlue osvrParams2 ->
  getEyes osvrParams1 !! N.to_nat eye1 = getEyes osvrParams2 !! N.to_nat eye2 ->
  fst <$> Construct osvrParams1 eye1 cerr1 =
  fst <$> Construct osvrParams2 eye2 cerr2.
Proof.
  intros Ht1 Ht2 Hx Hy Hred Hgreen Hblue Heye.
  destruct (getEyes osvrParams2 !! N.to_nat eye2) as [e|] eqn:He2.
  - rewrite (Construct_polynomials osvrParams1 eye1 cerr1 e) by done.
    rewrite (Construct_polynomials osvrParams2 eye2 cerr2 e) by done.
    by rewrite Hx, Hy, Hred, Hgreen, Hblue.
  - by rewrite !Construct_polynomials_undefined.
Qed.

(** X6. The two point-sample branches read nothing but their point
    meshes: two configurations of type [MONO_POINT_SAMPLES] with the same
    mono meshes, or of type [RGB_POINT_SAMPLES] with the same rgb meshes,
    yield the same record and stream at any eye indices. *)
Theorem Construct_point_samples_read_only_their_meshes
    osvrParams1 osvrParams2 eye1 eye2 cerr :
  (getDistortionType osvrParams1 = MONO_POINT_SAMPLES /\
   getDistortionType osvrParams2 = MONO_POINT_SAMPLES /\
   getDistortionMonoPointMeshes osvrParams1
     = getDistortionMonoPointMeshes osvrParams2) \/
  (getDistortionType osvrParams1 = RGB_POINT_SAMPLES /\
   getDistortionType osvrParams2 = RGB_POINT_SAMPLES /\
   getDistortionRGBPointMeshes osvrParams1
     = getDistortionRGBPointMeshes osvrParams2) ->
  Construct osvrParams1 eye1 cerr = Construct osvrParams2 eye2 cerr /\
  exists r, Construct osvrParams1 eye1 cerr = Some (r, cerr).
Proof.
  intros [(Ht1 & Ht2 & Hmesh)|(Ht1 & Ht2 & Hmesh)].
  - rewrite !Construct_mono, Hmesh by done. eauto.
  - rewrite !Construct_rgb, Hmesh by done. eauto.
Qed.

(** X7. When both coordinates of the eye's centre of projection are
    floats held in double precision, the conversion loses nothing: the
    record holds exactly those floats, and they denote the same numbers as
    the doubles of the configuration. *)
Theorem Construct_center_of_projection_exact
    osvrParams eye cerr e (kx ky : positive) (fx fy : float) :
  getDistortionType osvrParams = RGB_SYMMETRIC_POLYNOMIALS ->
  getEyes osvrParams !! N.to_nat eye = Some e ->
  is_float fx = true ->
  is_float fy = true ->
  m_CenterProjX e = widen kx fx ->
  m_CenterProjY e = widen ky fy ->
  exists r,
    Construct osvrParams eye cerr = Some (r, cerr) /\
    m_distortionCOP r = [fx; fy] /\
    to_Q <$> m_distortionCOP r = to_Q <$> [m_CenterProjX e; m_CenterProjY e].
Proof.
  intros Ht He Hfx Hfy Hx Hy. eexists. split.
  - by apply Construct_polynomials.
  - cbn [m_distortionCOP]. rewrite Hx, Hy.
    rewrite !static_cast_float_widen by done.
    split; [done|]. cbn. by rewrite !to_Q_widen.
Qed.

(** X8. Constructing twice in a row from the same configuration and eye
    index returns the same record both times, and on the last branch the
    diagnostic is written each time: nothing remembers that the type was
    already reported. *)
Theorem Construct_twice osvrParams eye cerr r cerr' :
  Construct osvrParams eye cerr = Some (r, cerr') ->
  let line :=
    if decide (getDistortionType osvrParams = RGB_SYMMETRIC_POLYNOMIALS \/
               getDistortionType osvrParams = MONO_POINT_SAMPLES \/
               getDistortionType osvrParams = RGB_POINT_SAMPLES)
    then ""
    else unrecognized_diagnostic (getDistortionTypeString osvrParams) in
  cerr' = cerr +:+ line /\
  (r1 ← Construct osvrParams eye;
   r2 ← Construct osvrParams eye;
   mret (r1, r2)) cerr = Some ((r, r), cerr +:+ line +:+ line).
Proof.
  intros Hrun.
  pose proof (Construct_runs osvrParams eye cerr) as Hcase.
  rewrite Hrun in Hcase.
  unfold mbind, M_bind, mret, M_ret.
  inversion Hcase as [e Ht He|Ht He|Ht|Ht|Ht]; subst; rewrite Ht; cbn zeta.
  - rewrite decide_True by auto. rewrite !string_app_nil_r.
    split; [done|]. by rewrite !(Construct_polynomials _ _ _ e).
  - rewrite decide_True by auto. rewrite !string_app_nil_r.
    split; [done|]. by rewrite !Construct_mono.
  - rewrite decide_True by auto. rewrite !string_app_nil_r.
    split; [done|]. by rewrite !Construct_rgb.
  - rewrite decide_False by (by intros [|[|]]).
    split; [done|].
    rewrite !Construct_unrecognized by (by rewrite Ht).
    by rewrite string_app_assoc.
Qed.

End Further.

(** ** The further properties on the sample configurations *)

Lemma Construct_recognized_is_silent_witness :
  Construct Samples.mono_mesh_hmd 3 "earlier output"
    = Some (set_m_monoPointSamples [1; 2]%nat
              (set_m_type mono_point_samples Default), "earlier output") /\
  (getDistortionType Samples.mono_mesh_hmd = RGB_SYMMETRIC_POLYNOMIALS \/
   getDistortionType Samples.mono_mesh_hmd = MONO_POINT_SAMPLES \/
   getDistortionType Samples.mono_mesh_hmd = RGB_POINT_SAMPLES) /\
  "earlier output" = "earlier output".
Proof.
  assert (Hrun :
    Construct Samples.mono_mesh_hmd 3 "earlier output"
      = Some (set_m_monoPointSamples [1; 2]%nat
                (set_m_type mono_point_samples Default), "earlier output"))
    by reflexivity.
  assert (Htype :
    getDistortionType Samples.mono_mesh_hmd = RGB_SYMMETRIC_POLYNOMIALS \/
    getDistortionType Samples.mono_mesh_hmd = MONO_POINT_SAMPLES \/
    getDistortionType Samples.mono_mesh_hmd = RGB_POINT_SAMPLES)
    by (right; left; reflexivity).
  split; [exact Hrun|]. split; [exact Htype|].
  exact (Construct_recognized_is_silent _ _ _ _ _ Hrun Htype).
Defined.

Lemma constructed_pairs_have_two_components_witness :
  constructed Samples.polynomial_hmd_left /\
  length (m_distortionCOP Samples.polynomial_hmd_left) = 2%nat /\
  length (m_distortionD Samples.polynomial_hmd_left) = 2%nat.
Proof.
  assert (Hr : constructed Samples.polynomial_hmd_left)
    by (apply (constructed_from Samples.polynomial_hmd 0 "" "");
        vm_compute; reflexivity).
  split; [exact Hr|].
  exact (constructed_pairs_have_two_components _ Hr).
Defined.

Lemma selected_variant_is_faithful_witness :
  Construct Samples.rgb_mesh_hmd 0 ""
    = Some (set_m_rgbPointSamples [3; 4; 5]%nat
              (set_m_type rgb_point_samples Default), "") /\
  (rgb_point_samples = rgb_point_samples ->
     getDistortionType Samples.rgb_mesh_hmd = RGB_POINT_SAMPLES /\
     [3; 4; 5]%nat = getDistortionRGBPointMeshes Samples.rgb_mesh_hmd).
Proof.
  assert (Hrun :
    Construct Samples.rgb_mesh_hmd 0 ""
      = Some (set_m_rgbPointSamples [3; 4; 5]%nat
                (set_m_type rgb_point_samples Default), ""))
    by reflexivity.
  split; [exact Hrun|].
  exact (proj1 (proj2 (selected_variant_is_faithful _ _ _ _ _ Hrun))).
Defined.

Lemma Construct_polynomials_reads_only_its_fields_witness :
  getEyes Samples.polynomial_hmd !! N.to_nat 1
    = getEyes MoreSamples.one_eyed_polynomial_hmd !! N.to_nat 0 /\
  fst <$> Construct Samples.polynomial_hmd 1 "" =
  fst <$> Construct MoreSamples.one_eyed_polynomial_hmd 0 "earlier output".
Proof.
  split; [reflexivity|].
  exact (Construct_polynomials_reads_only_its_fields
           Samples.polynomial_hmd MoreSamples.one_eyed_polynomial_hmd
           1 0 "" "earlier output"
           eq_refl eq_refl eq_refl eq_refl eq_refl eq_refl eq_refl eq_refl).
Defined.

Lemma Construct_point_samples_read_only_their_meshes_witness :
  (getDistortionType Samples.mono_mesh_hmd = MONO_POINT_SAMPLES /\
   getDistortionType MoreSamples.bare_mono_mesh_hmd = MONO_POINT_SAMPLES /\
   getDistortionMonoPointMeshes Samples.mono_mesh_hmd
     = getDistortionMonoPointMeshes MoreSamples.bare_mono_mesh_hmd) /\
  Construct Samples.mono_mesh_hmd 1 ""
    = Construct MoreSamples.bare_mono_mesh_hmd 4 "" /\
  exists r, Construct Samples.mono_mesh_hmd 1 "" = Some (r, "").
Proof.
  assert (Hsame :
    getDistortionType Samples.mono_mesh_hmd = MONO_POINT_SAMPLES /\
    getDistortionType MoreSamples.bare_mono_mesh_hmd = MONO_POINT_SAMPLES /\
    getDistortionMonoPointMeshes Samples.mono_mesh_hmd
      = getDistortionMonoPointMeshes MoreSamples.bare_mono_mesh_hmd)
    by (repeat split).
  split; [exact Hsame|].
  exact (Construct_point_samples_read_only_their_meshes
           Samples.mono_mesh_hmd MoreSamples.bare_mono_mesh_hmd 1 4 ""
           (or_introl Hsame)).
Defined.

Lemma Construct_center_of_projection_exact_witness :
  is_float (float_lit 3 (-2)) = true /\
  is_float (float_lit 1 (-1)) = true /\
  m_CenterProjX Samples.right_eye = widen 29 (float_lit 3 (-2)) /\
  m_CenterProjY Samples.right_eye = widen 29 (float_lit 1 (-1)) /\
  exists r,
    Construct Samples.polynomial_hmd 1 "" = Some (r, "") /\
    m_distortionCOP r = [float_lit 3 (-2); float_lit 1 (-1)] /\
    to_Q <$> m_distortionCOP r
      = to_Q <$> [m_CenterProjX Samples.right_eye;
                  m_CenterProjY Samples.right_eye].
Proof.
  split; [reflexivity|]. split; [reflexivity|].
  split; [reflexivity|]. split; [reflexivity|].
  exact (Construct_center_of_projection_exact
           Samples.polynomial_hmd 1 "" Samples.right_eye 29 29
           (float_lit 3 (-2)) (float_lit 1 (-1))
           eq_refl eq_refl eq_refl eq_refl eq_refl eq_refl).
Defined.

Lemma Construct_twice_witness :
  Construct Samples.unknown_hmd 0 ""
    = Some (Default, unrecognized_diagnostic "barrel") /\
  (r1 ← Construct Samples.unknown_hmd 0;
   r2 ← Construct Samples.unknown_hmd 0;
   mret (r1, r2)) ""
    = Some ((Default, Default),
            unrecognized_diagnostic "barrel"
            +:+ unrecognized_diagnostic "barrel").
Proof.
  assert (Hrun :
    Construct Samples.unknown_hmd 0 ""
      = Some (Default, unrecognized_diagnostic "barrel"))
    by reflexivity.
  split; [exact Hrun|].
  exact (proj2 (Construct_twice _ _ _ _ _ Hrun)).
Defined.
